(** * Sentiment analysis tool: a shallow embedding of [sentiment1.py]

    The program is a small PyQt5 desktop utility.  Its own logic is the two
    scorer wrappers ([analyze_sentiment_vader], [analyze_sentiment_textblob]),
    the file extractor ([process_file]) and the four button handlers of
    [SentimentAnalysisApp].  Everything else is third-party code (VADER,
    TextBlob, pandas, PyMuPDF, matplotlib, Qt); those collaborators are
    gathered in the record [Externals] and every definition below is
    parametric in it.

    Conventions of the embedding:
    - a Python [str] is a Rocq [string]; its characters stand for code points
      below 256;
    - a Python [float] is a rational [Q] (finite floats are rationals and are
      compared as such; NaN is outside the model);
    - a raised exception is the [Raise] outcome; the mutable attributes of
      the application object, the widgets and the visible effects are the
      fields of [World], threaded through the monad [M];
    - exceptions deriving from [BaseException] only (KeyboardInterrupt,
      SystemExit) are outside the model, so [except Exception] catches every
      modelled exception. *)

From Stdlib Require Import String Ascii List Bool Arith Lia QArith Lqa.
Import ListNotations.
Local Open Scope list_scope.
Local Open Scope string_scope.

(** ** Python values, exceptions and outcomes *)

(** The scalar values stored in [self.polarity] and [self.subjectivity]. *)
Inductive pyval :=
| PNone
| PFloat (x : Q)
| PStr (s : string).

(** A raised exception: its class name and [str(e)]. *)
Record exn := Exn { exn_class : string; exn_msg : string }.

Inductive outcome (A : Type) :=
| Return (a : A)
| Raise (e : exn).
Arguments Return {A} a.
Arguments Raise {A} e.

(** ** Strings *)

Module Str.

(** Truth value of a [str]: non-empty. *)
Definition truthy (s : string) : bool :=
  match s with EmptyString => false | String _ _ => true end.

(** [a or b] on strings. *)
Definition or_else (a b : string) : string :=
  if truthy a then a else b.

(** [str.isspace] on a single character, for code points below 256. *)
Definition isspace (c : ascii) : bool :=
  let n := nat_of_ascii c in
  (((9 <=? n) && (n <=? 13)) || ((28 <=? n) && (n <=? 32))
   || (n =? 133) || (n =? 160))%nat.

Fixpoint lstrip (s : string) : string :=
  match s with
  | EmptyString => EmptyString
  | String c s' => if isspace c then lstrip s' else s
  end.

Fixpoint rstrip (s : string) : string :=
  match s with
  | EmptyString => EmptyString
  | String c s' =>
      match rstrip s' with
      | EmptyString => if isspace c then EmptyString else String c EmptyString
      | r => String c r
      end
  end.

(** [s.strip()] *)
Definition strip (s : string) : string := rstrip (lstrip s).

(** [s.split(sep)] for a one-character separator. *)
Fixpoint split (sep : ascii) (s : string) : list string :=
  match s with
  | EmptyString => [EmptyString]
  | String c s' =>
      if Ascii.eqb c sep then EmptyString :: split sep s'
      else match split sep s' with
           | h :: t => String c h :: t
           | [] => [String c EmptyString]
           end
  end.

(** [file_path.split('.')[-1]] *)
Definition extension (path : string) : string :=
  last (split "."%char path) EmptyString.

End Str.

(** ** Score dictionaries and the builtin [max]

    A [dict] keeps insertion order, which is the order [max] iterates in; it
    is an association list whose keys are pairwise distinct ([wf_dict]). *)

Definition dict := list (string * Q).

Definition keys (d : dict) : list string := map fst d.


(** [d.get(k)]: the value, or [None]. *)
Fixpoint dict_get (d : dict) (k : string) : option Q :=
  match d with
  | [] => None
  | (k', v) :: d' => if String.eqb k' k then Some v else dict_get d' k
  end.

(** [d[k]]: the value, or [KeyError]. *)
Definition dict_item (d : dict) (k : string) : outcome Q :=
  match dict_get d k with
  | Some v => Return v
  | None => Raise (Exn "KeyError" k)
  end.

(** [a > b] on floats. *)
Definition Qgtb (a b : Q) : bool := negb (Qle_bool a b).

(** [a > b] on the results of [d.get]: [None] is not ordered. *)
Definition get_gt (a b : option Q) : outcome bool :=
  match a, b with
  | Some x, Some y => Return (Qgtb x y)
  | _, _ => Raise (Exn "TypeError" "'>' not supported between instances")
  end.

(** The loop of [max(iterable, key=f)]: the running maximum is replaced only
    by a strictly greater item, so the first maximal item wins. *)
Fixpoint max_loop (key : string -> option Q)
    (best : string) (best_val : option Q) (rest : list string)
  : outcome string :=
  match rest with
  | [] => Return best
  | item :: rest' =>
      let val := key item in
      match get_gt val best_val with
      | Raise e => Raise e
      | Return true => max_loop key item val rest'
      | Return false => max_loop key best best_val rest'
      end
  end.

Definition py_max (key : string -> option Q) (items : list string)
  : outcome string :=
  match items with
  | [] => Raise (Exn "ValueError" "max() arg is an empty sequence")
  | item :: rest => max_loop key item (key item) rest
  end.

(** The value held by [self.vader_scores]: [None] at start and after a clear,
    the score dict of a successful call, or the pair [(None, str(e))] that
    [analyze_sentiment_vader] returns on failure. *)
Inductive vader_value :=
| VNone
| VScores (d : dict)
| VError (msg : string).

(** Truth value of [self.vader_scores]: [None] and the empty dict are false,
    a non-empty dict and any 2-tuple are true. *)
Definition vader_truthy (v : vader_value) : bool :=
  match v with
  | VNone => false
  | VScores [] => false
  | VScores (_ :: _) => true
  | VError _ => true
  end.

(** [max(v, key=v.get)]: the attribute [v.get] is looked up while the
    arguments are evaluated, before [max] runs. *)
Definition overall_sentiment (v : vader_value) : outcome string :=
  match v with
  | VScores d => py_max (dict_get d) (keys d)
  | VError _ =>
      Raise (Exn "AttributeError" "'tuple' object has no attribute 'get'")
  | VNone =>
      Raise (Exn "TypeError" "'NoneType' object is not iterable")
  end.

(** ** The world: application attributes, widgets and visible effects *)

(** Effects a user or the operating system can observe, in order. *)
Inductive event :=
| MsgWarning (title text : string)        (* QMessageBox.warning *)
| MsgInformation (title text : string)    (* QMessageBox.information *)
| OpenFileDialog                          (* QFileDialog.getOpenFileName *)
| SaveFileDialog                          (* QFileDialog.getSaveFileName *)
| FileRead (path : string)                (* open(..,'r'), pd.read_csv, fitz.open *)
| FileWrite (path content : string)       (* open(..,'w') and file.write *)
| VaderCall (text : string)               (* analyzer.polarity_scores *)
| TextBlobCall (text : string).           (* TextBlob(text).sentiment *)

Record World := mkWorld {
  results : string;            (* self.results *)
  vader_scores : vader_value;  (* self.vader_scores *)
  polarity : pyval;            (* self.polarity *)
  subjectivity : pyval;        (* self.subjectivity *)
  file_content : string;       (* self.file_content *)
  text_entry : string;         (* contents of self.text_entry *)
  result_label : string;       (* text of self.result_label *)
  chart : list (string * pyval); (* bars on self.visualizer.ax *)
  trace : list event
}.

Definition set_results (x : string) (w : World) : World :=
  mkWorld x (vader_scores w) (polarity w) (subjectivity w) (file_content w)
          (text_entry w) (result_label w) (chart w) (trace w).
Definition set_vader_scores (x : vader_value) (w : World) : World :=
  mkWorld (results w) x (polarity w) (subjectivity w) (file_content w)
          (text_entry w) (result_label w) (chart w) (trace w).
Definition set_polarity (x : pyval) (w : World) : World :=
  mkWorld (results w) (vader_scores w) x (subjectivity w) (file_content w)
          (text_entry w) (result_label w) (chart w) (trace w).
Definition set_subjectivity (x : pyval) (w : World) : World :=
  mkWorld (results w) (vader_scores w) (polarity w) x (file_content w)
          (text_entry w) (result_label w) (chart w) (trace w).
Definition set_file_content (x : string) (w : World) : World :=
  mkWorld (results w) (vader_scores w) (polarity w) (subjectivity w) x
          (text_entry w) (result_label w) (chart w) (trace w).
Definition set_text_entry (x : string) (w : World) : World :=
  mkWorld (results w) (vader_scores w) (polarity w) (subjectivity w)
          (file_content w) x (result_label w) (chart w) (trace w).
Definition set_result_label (x : string) (w : World) : World :=
  mkWorld (results w) (vader_scores w) (polarity w) (subjectivity w)
          (file_content w) (text_entry w) x (chart w) (trace w).
Definition set_chart (x : list (string * pyval)) (w : World) : World :=
  mkWorld (results w) (vader_scores w) (polarity w) (subjectivity w)
          (file_content w) (text_entry w) (result_label w) x (trace w).
Definition set_trace (x : list event) (w : World) : World :=
  mkWorld (results w) (vader_scores w) (polarity w) (subjectivity w)
          (file_content w) (text_entry w) (result_label w) (chart w) x.

(** The five attributes assigned in [SentimentAnalysisApp.__init__] and
    reset in [clear_text]. *)
Definition stored (w : World)
  : string * vader_value * pyval * pyval * string :=
  (results w, vader_scores w, polarity w, subjectivity w, file_content w).

(** Everything but the trace: the attributes and the widgets. *)
Definition snapshot (w : World) :=
  (stored w, text_entry w, result_label w, chart w).

(** The application right after [__init__]. *)
Definition init : World :=
  mkWorld "" VNone PNone PNone "" "" "" [] [].

(** ** A state and exception monad

    A computation runs in a world and ends by returning or raising; either
    way the world keeps the assignments made so far, as in Python. *)

Definition M (A : Type) : Type := World -> outcome A * World.

Definition ret {A} (a : A) : M A := fun w => (Return a, w).

Definition bind {A B} (m : M A) (k : A -> M B) : M B :=
  fun w =>
    match m w with
    | (Return a, w') => k a w'
    | (Raise e, w') => (Raise e, w')
    end.

Definition lift {A} (o : outcome A) : M A := fun w => (o, w).

Definition gets {A} (f : World -> A) : M A := fun w => (Return (f w), w).

Definition modify (f : World -> World) : M unit := fun w => (Return tt, f w).

Definition emit (e : event) : M unit :=
  modify (fun w => set_trace (trace w ++ [e])%list w).

(** [try: body / except Exception as e: handler e] *)
Definition try_except {A} (body : M A) (handler : exn -> M A) : M A :=
  fun w =>
    match body w with
    | (Raise e, w') => handler e w'
    | r => r
    end.

Declare Scope py_scope.
Delimit Scope py_scope with py.
Notation "x <- m ;; k" := (bind m (fun x => k))
  (at level 61, m at next level, right associativity) : py_scope.
Notation "m ;; k" := (bind m (fun _ => k))
  (at level 61, right associativity) : py_scope.
Local Open Scope py_scope.

(** Final world and outcome of a handler. *)
Definition exec {A} (m : M A) (w : World) : World := snd (m w).
Definition result {A} (m : M A) (w : World) : outcome A := fst (m w).

(** ** Third-party collaborators *)

Record Externals := mkExternals {
  DataFrame : Type;
  Document : Type;
  Page : Type;
  (* vaderSentiment: analyzer.polarity_scores(text) *)
  polarity_scores : string -> outcome dict;
  (* textblob: TextBlob(text).sentiment, as (polarity, subjectivity) *)
  blob_sentiment : string -> outcome (Q * Q);
  (* str() of the value of self.vader_scores inside an f-string *)
  format_scores : vader_value -> string;
  (* format(x, '.4f') of a float *)
  format_4f : Q -> string;
  (* open(path, 'r', encoding='utf-8') followed by file.read() *)
  open_read : string -> outcome string;
  (* pandas: pd.read_csv(path) and df.to_string() *)
  read_csv : string -> outcome DataFrame;
  to_string : DataFrame -> outcome string;
  (* PyMuPDF: fitz.open(path), .page_count, .load_page(n), page.get_text() *)
  fitz_open : string -> outcome Document;
  page_count : Document -> nat;
  load_page : Document -> nat -> outcome Page;
  get_text : Page -> outcome string;
  (* open(path, 'w', encoding='utf-8') followed by file.write(content) *)
  open_write : string -> string -> outcome unit;
  (* matplotlib: ax.bar(labels, heights, color=...) *)
  ax_bar : list pyval -> outcome unit
}.

Definition nl : string := String (ascii_of_nat 10) EmptyString.

Section Program.

Variable ext : Externals.

(** *** Scorer wrappers *)

Definition analyze_sentiment_vader (text : string) : M vader_value :=
  try_except
    (emit (VaderCall text) ;;
     scores <- lift (polarity_scores ext text) ;;
     ret (VScores scores))
    (fun e => ret (VError (exn_msg e))).

Definition analyze_sentiment_textblob (text : string) : M (pyval * pyval) :=
  try_except
    (emit (TextBlobCall text) ;;
     sentiment <- lift (blob_sentiment ext text) ;;
     ret (PFloat (fst sentiment), PFloat (snd sentiment)))
    (fun e => ret (PNone, PStr (exn_msg e))).

(** *** File extractor *)

(** The loop over [range(pdf_document.page_count)]. *)
Fixpoint pdf_pages (pdf_document : Document ext) (page_nums : list nat)
    (content : string) : outcome string :=
  match page_nums with
  | [] => Return content
  | page_num :: rest =>
      match load_page ext pdf_document page_num with
      | Raise e => Raise e
      | Return page =>
          match get_text ext page with
          | Raise e => Raise e
          | Return text => pdf_pages pdf_document rest (content ++ text)
          end
      end
  end.

Definition process_file (file_path file_type : string) : M string :=
  let content := "" in
  if file_type =? "txt" then
    emit (FileRead file_path) ;;
    content <- lift (open_read ext file_path) ;;
    ret content
  else if file_type =? "csv" then
    emit (FileRead file_path) ;;
    df <- lift (read_csv ext file_path) ;;
    content <- lift (to_string ext df) ;;
    ret content
  else if file_type =? "pdf" then
    emit (FileRead file_path) ;;
    pdf_document <- lift (fitz_open ext file_path) ;;
    content <- lift (pdf_pages pdf_document
                       (seq 0 (page_count ext pdf_document)) content) ;;
    ret content
  else
    ret content.

(** *** SentimentVisualizer.plot *)

(** [vader_scores[k]] *)
Definition vader_item (v : vader_value) (k : string) : outcome pyval :=
  match v with
  | VScores d =>
      match dict_item d k with
      | Return x => Return (PFloat x)
      | Raise e => Raise e
      end
  | VError _ =>
      Raise (Exn "TypeError" "tuple indices must be integers or slices, not str")
  | VNone =>
      Raise (Exn "TypeError" "'NoneType' object is not subscriptable")
  end.

Definition plot_labels : list string :=
  ["Positive"; "Neutral"; "Negative"; "Polarity"; "Subjectivity"].

Definition plot (vader_scores : vader_value) (polarity subjectivity : pyval)
  : M unit :=
  pos <- lift (vader_item vader_scores "pos") ;;
  neu <- lift (vader_item vader_scores "neu") ;;
  neg <- lift (vader_item vader_scores "neg") ;;
  let vader_data := [pos; neu; neg; polarity; subjectivity] in
  modify (set_chart []) ;;
  lift (ax_bar ext vader_data) ;;
  modify (set_chart (combine plot_labels vader_data)).

(** *** SentimentAnalysisApp *)

(** [x > 0] and [x < 0] on a stored scalar. *)
Definition gt_zero (x : pyval) : outcome bool :=
  match x with
  | PFloat q => Return (Qgtb q 0)
  | _ => Raise (Exn "TypeError" "'>' not supported between instances")
  end.

Definition lt_zero (x : pyval) : outcome bool :=
  match x with
  | PFloat q => Return (Qgtb 0 q)
  | _ => Raise (Exn "TypeError" "'<' not supported between instances")
  end.

(** ["Positive" if p > 0 else "Negative" if p < 0 else "Neutral"] *)
Definition textblob_label (p : pyval) : outcome string :=
  match gt_zero p with
  | Raise e => Raise e
  | Return true => Return "Positive"
  | Return false =>
      match lt_zero p with
      | Raise e => Raise e
      | Return true => Return "Negative"
      | Return false => Return "Neutral"
      end
  end.

(** [f"{x:.4f}"] *)
Definition fmt_4f (x : pyval) : outcome string :=
  match x with
  | PFloat q => Return (format_4f ext q)
  | PStr _ =>
      Raise (Exn "ValueError" "Unknown format code 'f' for object of type 'str'")
  | PNone =>
      Raise (Exn "TypeError" "unsupported format string passed to NoneType.__format__")
  end.

Definition is_not_none (x : pyval) : bool :=
  match x with PNone => false | _ => true end.

(** The block under "Perform VADER sentiment analysis", after the
    assignment to [self.vader_scores]: the first part of [result_text].
    It reads [self.vader_scores] only. *)
Definition vader_report (vader_scores : vader_value) : outcome string :=
  if vader_truthy vader_scores then
    match overall_sentiment vader_scores with
    | Raise e => Raise e
    | Return overall =>
        let result_text := "Overall Sentiment (VADER): " ++ overall ++ nl in
        Return (result_text ++ "Scores: " ++ format_scores ext vader_scores ++ nl)
    end
  else
    Return ("Error analyzing sentiment with VADER." ++ nl).

(** The block under "Perform TextBlob sentiment analysis", after the
    assignment to [self.polarity, self.subjectivity]; it reads these two
    attributes and extends [result_text]. *)
Definition textblob_report (polarity subjectivity : pyval)
    (result_text : string) : outcome string :=
  if is_not_none polarity then
    match textblob_label polarity with
    | Raise e => Raise e
    | Return sentiment =>
        let result_text :=
          result_text ++ "Overall Sentiment (TextBlob): " ++ sentiment ++ nl in
        match fmt_4f polarity with
        | Raise e => Raise e
        | Return fp =>
            match fmt_4f subjectivity with
            | Raise e => Raise e
            | Return fs =>
                Return (result_text ++ "Polarity: " ++ fp ++ nl
                          ++ "Subjectivity: " ++ fs)
            end
        end
    end
  else
    Return (result_text ++ "Error analyzing sentiment with TextBlob.").

(** The text that is analysed:
    [self.text_entry.toPlainText().strip() or self.file_content]. *)
Definition input_text (w : World) : string :=
  Str.or_else (Str.strip (text_entry w)) (file_content w).

(** The statements of [perform_analysis] that follow the input check. *)
Definition run_analysis (text : string) : M unit :=
  v <- analyze_sentiment_vader text ;;
  modify (set_vader_scores v) ;;
  vs <- gets vader_scores ;;
  result_text <- lift (vader_report vs) ;;
  ps <- analyze_sentiment_textblob text ;;
  modify (set_polarity (fst ps)) ;;
  modify (set_subjectivity (snd ps)) ;;
  p <- gets polarity ;;
  s <- gets subjectivity ;;
  result_text <- lift (textblob_report p s result_text) ;;
  modify (set_results result_text) ;;
  modify (set_result_label result_text) ;;
  vs <- gets vader_scores ;;
  p <- gets polarity ;;
  s <- gets subjectivity ;;
  plot vs p s.

Definition perform_analysis : M unit :=
  text <- gets input_text ;;
  if negb (Str.truthy text) then
    emit (MsgWarning "Input Error"
            "Please enter some text or upload a file to analyze.")
  else
    run_analysis text.

Definition clear_text : M unit :=
  modify (set_text_entry "") ;;
  modify (set_result_label "") ;;
  modify (set_results "") ;;
  modify (set_vader_scores VNone) ;;
  modify (set_polarity PNone) ;;
  modify (set_subjectivity PNone) ;;
  modify (set_file_content "") ;;
  modify (set_chart []).

(** [chosen] is the path returned by the open dialog, empty on cancel. *)
Definition upload_file (chosen : string) : M unit :=
  emit OpenFileDialog ;;
  let file_path := chosen in
  if Str.truthy file_path then
    let file_type := Str.extension file_path in
    content <- process_file file_path file_type ;;
    modify (set_file_content content) ;;
    fc <- gets file_content ;;
    modify (set_text_entry fc)
  else
    ret tt.

(** [chosen] is the path returned by the save dialog, empty on cancel. *)
Definition save_results (chosen : string) : M unit :=
  r <- gets results ;;
  if Str.truthy r then
    emit SaveFileDialog ;;
    let file_path := chosen in
    if Str.truthy file_path then
      r <- gets results ;;
      lift (open_write ext file_path r) ;;
      emit (FileWrite file_path r) ;;
      emit (MsgInformation "Save Results" "Results saved successfully!")
    else
      ret tt
  else
    emit (MsgWarning "No Results"
            "No results to save. Perform analysis first.").

End Program.

(** ** Sample collaborators

    Concrete stand-ins for the third-party libraries, used to run the
    program on explicit inputs.  The two scorers are parameters; the file
    system holds one text file, one CSV file and one three-page PDF whose
    second page cannot be read. *)

Module Sample.

Definition scores (neg neu pos compound : Q) : dict :=
  [("neg", neg); ("neu", neu); ("pos", pos); ("compound", compound)].

(** Scores of two sentences as VADER documents them. *)
Definition love_text : string := "I love this!".
Definition praise_text : string := "VADER is smart, handsome, and funny.".

Definition love_scores : dict := scores 0.0 0.182 0.818 0.6696.
Definition praise_scores : dict := scores 0.0 0.254 0.746 0.8316.

Definition vader_ok (text : string) : outcome dict :=
  if text =? praise_text then Return praise_scores
  else if text =? love_text then Return love_scores
  else Return (scores 0.0 1.0 0.0 0.0).

Definition blob_ok (text : string) : outcome (Q * Q) :=
  if text =? love_text then Return (0.625, 0.6)
  else if text =? praise_text then Return (0.3381, 0.8810)
  else Return (0.0, 0.0).

Definition vader_broken (text : string) : outcome dict :=
  Raise (Exn "IndexError" "list index out of range").

Definition blob_broken (text : string) : outcome (Q * Q) :=
  Raise (Exn "LookupError" "resource not found").

Definition pdf_pages_on_disk : list (outcome string) :=
  [Return "first page. ";
   Raise (Exn "RuntimeError" "cannot load page");
   Return "third page."].

Definition ext (vader : string -> outcome dict)
    (blob : string -> outcome (Q * Q)) : Externals :=
  {| DataFrame := string;
     Document := list (outcome string);
     Page := outcome string;
     polarity_scores := vader;
     blob_sentiment := blob;
     format_scores := fun _ => "{..}";
     format_4f := fun _ => "0.0000";
     open_read := fun path =>
       if path =? "notes.txt" then Return love_text
       else Raise (Exn "FileNotFoundError" path);
     read_csv := fun path =>
       if path =? "table.csv" then Return "   a  b"
       else Raise (Exn "ParserError" path);
     to_string := fun df => Return df;
     fitz_open := fun path =>
       if path =? "report.pdf" then Return pdf_pages_on_disk
       else Raise (Exn "FileDataError" path);
     page_count := fun doc => length doc;
     load_page := fun doc n =>
       match nth_error doc n with
       | Some page => Return page
       | None => Raise (Exn "ValueError" "page not in document")
       end;
     get_text := fun page => page;
     open_write := fun _ _ => Return tt;
     ax_bar := fun _ => Return tt |}.

Definition healthy : Externals := ext vader_ok blob_ok.
Definition vader_down : Externals := ext vader_broken blob_ok.
Definition textblob_down : Externals := ext vader_ok blob_broken.

(** The application after the user typed [text] into the entry box. *)
Definition typed (text : string) : World := set_text_entry text init.

End Sample.

(** ** Values returned by the scorer wrappers

    What [analyze_sentiment_vader] and [analyze_sentiment_textblob] return
    for a text: the scorer's answer, or the pair [(None, str(e))]. *)

Definition vader_value_of (ext : Externals) (text : string) : vader_value :=
  match polarity_scores ext text with
  | Return scores => VScores scores
  | Raise e => VError (exn_msg e)
  end.

Definition textblob_pair_of (ext : Externals) (text : string) : pyval * pyval :=
  match blob_sentiment ext text with
  | Return sentiment => (PFloat (fst sentiment), PFloat (snd sentiment))
  | Raise e => (PNone, PStr (exn_msg e))
  end.

(** ** Vocabulary of the statements *)

(** The two warnings the handlers can show. *)
Definition input_warning : event :=
  MsgWarning "Input Error"
    "Please enter some text or upload a file to analyze.".

Definition no_results_warning : event :=
  MsgWarning "No Results" "No results to save. Perform analysis first.".



(** The ways an extraction can fail, with the exception that is raised:
    the text file cannot be read or decoded, the CSV cannot be parsed or
    rendered, the PDF cannot be opened, or page [n] of the PDF cannot be
    loaded or read after the pages before it were read. *)
Inductive extraction_fails (ext : Externals) (path : string)
  : string -> exn -> Prop :=
| txt_unreadable e :
    open_read ext path = Raise e ->
    extraction_fails ext path "txt" e
| csv_malformed e :
    read_csv ext path = Raise e ->
    extraction_fails ext path "csv" e
| csv_unprintable df e :
    read_csv ext path = Return df ->
    to_string ext df = Raise e ->
    extraction_fails ext path "csv" e
| pdf_unopenable e :
    fitz_open ext path = Raise e ->
    extraction_fails ext path "pdf" e
| pdf_page_fails doc n e :
    fitz_open ext path = Return doc ->
    (n < page_count ext doc)%nat ->
    (forall i, (i < n)%nat ->
       exists page text,
         load_page ext doc i = Return page /\ get_text ext page = Return text) ->
    (load_page ext doc n = Raise e \/
     exists page, load_page ext doc n = Return page /\
                  get_text ext page = Raise e) ->
    extraction_fails ext path "pdf" e.

(** ** Intermediate worlds of [perform_analysis] *)

Definition logged (e : event) (w : World) : World :=
  set_trace (trace w ++ [e])%list w.

(** The world once the VADER call was made and its value stored. *)
Definition after_vader (text : string) (v : vader_value) (w : World) : World :=
  set_vader_scores v (logged (VaderCall text) w).

(** The world once the TextBlob call was made and its pair stored. *)
Definition after_textblob (text : string) (p s : pyval) (w : World) : World :=
  set_subjectivity s (set_polarity p (logged (TextBlobCall text) w)).

(** The world once the report was stored and shown. *)
Definition after_report (r : string) (w : World) : World :=
  set_result_label r (set_results r w).


(** ** Sessions

    What a user can do with the window: edit the entry box, or press one of
    the four buttons wired in [initUI].  A file dialog answers with the
    chosen path, empty on cancel.  The attributes keep the assignments made
    before an exception, so a session is followed past a raising handler;
    where Qt ends the program on it instead, the session just stops there. *)

Inductive action :=
| Edit (text : string)      (* typing in self.text_entry *)
| Analyze                   (* analyze_button -> perform_analysis *)
| Clear                     (* clear_button -> clear_text *)
| Upload (chosen : string)  (* upload_button -> upload_file *)
| Save (chosen : string).   (* save_button -> save_results *)

Definition handle (ext : Externals) (a : action) : M unit :=
  match a with
  | Edit text => modify (set_text_entry text)
  | Analyze => perform_analysis ext
  | Clear => clear_text
  | Upload chosen => upload_file ext chosen
  | Save chosen => save_results ext chosen
  end.

(** The world after a sequence of actions on a fresh application. *)
Definition session (ext : Externals) (actions : list action) : World :=
  fold_left (fun w a => exec (handle ext a) w) actions init.

(** The shapes the stored TextBlob pair can take: nothing yet, two floats,
    or [None] with the text of the exception. *)
Definition pair_shape (polarity subjectivity : pyval) : Prop :=
  (polarity = PNone /\ subjectivity = PNone) \/
  (exists p s, polarity = PFloat p /\ subjectivity = PFloat s) \/
  (exists msg, polarity = PNone /\ subjectivity = PStr msg).

(** Events that carry a text: no empty path or content is written, and no
    scorer is called on the empty text. *)
Definition sound_event (e : event) : Prop :=
  match e with
  | FileWrite path content => path <> "" /\ content <> ""
  | VaderCall text => text <> ""
  | TextBlobCall text => text <> ""
  | _ => True
  end.

(** What holds of the window between two actions: the label shows the
    stored report, the TextBlob pair has one of its shapes, and every event
    so far is sound. *)
Definition coherent (w : World) : Prop :=
  result_label w = results w /\
  pair_shape (polarity w) (subjectivity w) /\
  Forall sound_event (trace w).

(** Whether character [c] occurs in [s]. *)
Fixpoint contains (c : ascii) (s : string) : bool :=
  match s with
  | EmptyString => false
  | String c' s' => Ascii.eqb c' c || contains c s'
  end.

(** Whether every character of [s] is white space. *)
Fixpoint blank (s : string) : bool :=
  match s with
  | EmptyString => true
  | String c s' => Str.isspace c && blank s'
  end.

(** The texts of pages [first .. first + count - 1], one after the other. *)
Definition pages_text (texts : nat -> string) (first count : nat) : string :=
  fold_right String.append "" (map texts (seq first count)).


(** A second set of collaborators: a two-page PDF that reads well, a
    directory that cannot be written to, and a chart that refuses heights
    that are not numbers. *)
Module Shelf.

Definition clean_pdf : list (outcome string) :=
  [Return "first page. "; Return "second page."].

Definition is_float (x : pyval) : bool :=
  match x with PFloat _ => true | _ => false end.

Definition ext : Externals :=
  {| DataFrame := string;
     Document := list (outcome string);
     Page := outcome string;
     polarity_scores := Sample.vader_ok;
     blob_sentiment := Sample.blob_ok;
     format_scores := fun _ => "{..}";
     format_4f := fun _ => "0.0000";
     open_read := fun path =>
       if path =? "notes.txt" then Return Sample.love_text
       else Raise (Exn "FileNotFoundError" path);
     read_csv := fun path =>
       if path =? "table.csv" then Return "   a  b"
       else Raise (Exn "ParserError" path);
     to_string := fun df => Return df;
     fitz_open := fun path =>
       if path =? "clean.pdf" then Return clean_pdf
       else Raise (Exn "FileDataError" path);
     page_count := fun doc => length doc;
     load_page := fun doc n =>
       match nth_error doc n with
       | Some page => Return page
       | None => Raise (Exn "ValueError" "page not in document")
       end;
     get_text := fun page => page;
     open_write := fun path _ =>
       if path =? "/locked/out.txt" then Raise (Exn "PermissionError" path)
       else Return tt;
     ax_bar := fun heights =>
       if forallb is_float heights then Return tt
       else Raise (Exn "TypeError" "bar height is not a number") |}.

End Shelf.

(** * Properties *)

(** ** Floats and dictionaries *)

Lemma Qgtb_true (a b : Q) : Qgtb a b = true <-> (b < a)%Q.
Proof.
  unfold Qgtb. rewrite negb_true_iff. split; intro H.
  - apply Qnot_le_lt. intro Hle. apply Qle_bool_iff in Hle. congruence.
  - destruct (Qle_bool a b) eqn:E; [|reflexivity].
    apply Qle_bool_iff in E. exfalso. exact (Qlt_not_le _ _ H E).
Qed.

Lemma Qgtb_false (a b : Q) : Qgtb a b = false <-> (a <= b)%Q.
Proof.
  unfold Qgtb. rewrite negb_false_iff. apply Qle_bool_iff.
Qed.




(** [max(d, key=d.get)] never raises on a non-empty dict. *)
Lemma max_loop_returns (d : dict) :
  forall (rest : list string) (best : string) (bv : Q),
  (forall k, In k rest -> In k (keys d)) ->
  exists k, max_loop (dict_get d) best (Some bv) rest = Return k.
Proof.
  induction rest as [|k1 rest IH]; intros best bv Hin; simpl.
  - now exists best.
  - destruct (dict_get d k1) as [v1|] eqn:E.
    + simpl. destruct (Qgtb v1 bv); apply IH; intros; apply Hin; now right.
    + exfalso. assert (Hk : In k1 (keys d)) by (apply Hin; now left).
      clear - E Hk. induction d as [|[k' v'] d IHd]; simpl in *; [contradiction|].
      destruct (String.eqb_spec k' k1); [discriminate|].
      destruct Hk as [Hk|Hk]; [contradiction|auto].
Qed.

Lemma overall_sentiment_returns (d : dict) :
  d <> [] -> exists k, overall_sentiment (VScores d) = Return k.
Proof.
  intro Hne. destruct d as [|[k0 v0] rest]; [congruence|].
  unfold overall_sentiment, py_max. cbn [keys map fst].
  replace (dict_get ((k0, v0) :: rest) k0) with (Some v0)
    by (simpl; now rewrite String.eqb_refl).
  apply max_loop_returns. intros k Hk. now right.
Qed.

(** ** Running the handlers *)

Ltac run :=
  unfold perform_analysis, run_analysis, analyze_sentiment_vader,
    analyze_sentiment_textblob, plot,
    save_results, upload_file, clear_text, process_file,
    after_vader, after_textblob, after_report, logged,
    try_except, bind, ret, lift, gets, modify, emit, exec, result;
  cbn [fst snd results vader_scores polarity subjectivity file_content
       text_entry result_label chart trace set_results set_vader_scores
       set_polarity set_subjectivity set_file_content set_text_entry
       set_result_label set_chart set_trace negb].

(** Worlds built by nested assignments, brought to one record. *)
Ltac world :=
  cbv beta iota delta
    [after_report after_textblob after_vader logged snapshot stored
     set_results set_vader_scores set_polarity set_subjectivity
     set_file_content set_text_entry set_result_label set_chart set_trace
     results vader_scores polarity subjectivity file_content text_entry
     result_label chart trace].

Section Runs.

Variable ext : Externals.

(** The wrappers return a value that depends on the text only, never
    raise, and leave everything but the trace alone. *)
Lemma analyze_sentiment_vader_run (text : string) (w : World) :
  analyze_sentiment_vader ext text w =
    (Return (vader_value_of ext text), logged (VaderCall text) w).
Proof.
  run. unfold vader_value_of. now destruct (polarity_scores ext text).
Qed.

Lemma analyze_sentiment_textblob_run (text : string) (w : World) :
  analyze_sentiment_textblob ext text w =
    (Return (textblob_pair_of ext text), logged (TextBlobCall text) w).
Proof.
  run. unfold textblob_pair_of. now destruct (blob_sentiment ext text).
Qed.

(** The statements after the input check, one stage at a time. *)
Lemma run_analysis_run (text : string) (w : World) :
  run_analysis ext text w =
    let v := vader_value_of ext text in
    let w1 := after_vader text v w in
    match vader_report ext v with
    | Raise e => (Raise e, w1)
    | Return head =>
        let ps := textblob_pair_of ext text in
        let w2 := after_textblob text (fst ps) (snd ps) w1 in
        match textblob_report ext (fst ps) (snd ps) head with
        | Raise e => (Raise e, w2)
        | Return r => plot ext v (fst ps) (snd ps) (after_report r w2)
        end
    end.
Proof.
  unfold run_analysis, bind, gets, modify, lift.
  rewrite analyze_sentiment_vader_run. cbn [vader_scores set_vader_scores].
  destruct (vader_report ext (vader_value_of ext text)) as [head|e];
    [|reflexivity].
  rewrite analyze_sentiment_textblob_run.
  cbn [polarity subjectivity set_polarity set_subjectivity].
  cbv zeta.
  destruct (textblob_report ext _ _ head); reflexivity.
Qed.

Lemma perform_analysis_nonempty (w : World) :
  Str.truthy (input_text w) = true ->
  perform_analysis ext w = run_analysis ext (input_text w) w.
Proof.
  intro H. unfold perform_analysis, bind, gets. now rewrite H.
Qed.

Lemma perform_analysis_empty (w : World) :
  Str.truthy (input_text w) = false ->
  perform_analysis ext w = (Return tt, logged input_warning w).
Proof.
  intro H. unfold perform_analysis, bind, gets. now rewrite H.
Qed.

(** [plot] draws on the chart only. *)
Lemma plot_frame (v : vader_value) (p s : pyval) (w : World) :
  let w' := exec (plot ext v p s) w in
  stored w' = stored w /\ text_entry w' = text_entry w /\
  result_label w' = result_label w /\ trace w' = trace w.
Proof.
  run.
  destruct (vader_item v "pos"); [|now cbn].
  destruct (vader_item v "neu"); [|now cbn].
  destruct (vader_item v "neg"); [|now cbn].
  cbn. now destruct (ax_bar ext _).
Qed.

Lemma run_analysis_vader_raises (text : string) (e : exn) (w : World) :
  polarity_scores ext text = Raise e ->
  run_analysis ext text w =
    (Raise (Exn "AttributeError" "'tuple' object has no attribute 'get'"),
     after_vader text (VError (exn_msg e)) w).
Proof.
  intro H. rewrite run_analysis_run. unfold vader_value_of. now rewrite H.
Qed.

Lemma perform_analysis_vader_raises (e : exn) (w : World) :
  Str.truthy (input_text w) = true ->
  polarity_scores ext (input_text w) = Raise e ->
  perform_analysis ext w =
    (Raise (Exn "AttributeError" "'tuple' object has no attribute 'get'"),
     after_vader (input_text w) (VError (exn_msg e)) w).
Proof.
  intros Ht H. rewrite perform_analysis_nonempty by exact Ht.
  now apply run_analysis_vader_raises.
Qed.

Lemma append_assoc (a b c : string) : (a ++ b) ++ c = a ++ b ++ c.
Proof.
  induction a as [|x a IH]; simpl; [reflexivity|now rewrite IH].
Qed.

Lemma append_truthy (a b : string) :
  Str.truthy a = true -> Str.truthy (a ++ b) = true.
Proof. now destruct a. Qed.

(** On a dict the VADER block never raises, and its text is not empty. *)
Lemma vader_report_returns (d : dict) :
  exists head,
    vader_report ext (VScores d) = Return head /\ Str.truthy head = true.
Proof.
  destruct d as [|kv d].
  - eexists. split; reflexivity.
  - destruct (overall_sentiment_returns (kv :: d)) as [k Hk]; [discriminate|].
    unfold vader_report. cbn [vader_truthy]. rewrite Hk.
    eexists. split; reflexivity.
Qed.


(** The label chosen for a float polarity. *)
Lemma textblob_label_float (p : Q) :
  exists label,
    textblob_label (PFloat p) = Return label /\
    (label = "Positive" <-> (p > 0)%Q) /\
    (label = "Negative" <-> (p < 0)%Q) /\
    (label = "Neutral" <-> (p == 0)%Q).
Proof.
  unfold textblob_label, gt_zero, lt_zero.
  destruct (Qgtb p 0) eqn:Hgt.
  - apply Qgtb_true in Hgt. exists "Positive".
    repeat split; try discriminate; intros; try assumption; try reflexivity;
      exfalso; lra.
  - apply Qgtb_false in Hgt. destruct (Qgtb 0 p) eqn:Hlt.
    + apply Qgtb_true in Hlt. exists "Negative".
      repeat split; try discriminate; intros; try assumption; try reflexivity;
        exfalso; lra.
    + apply Qgtb_false in Hlt. exists "Neutral".
      repeat split; try discriminate; intros; try reflexivity;
        try (exfalso; lra); lra.
Qed.

(** The TextBlob block on the pair of a successful call. *)
Lemma textblob_report_scored (p s : Q) (head label : string) :
  textblob_label (PFloat p) = Return label ->
  textblob_report ext (PFloat p) (PFloat s) head =
    Return (head ++ "Overall Sentiment (TextBlob): " ++ label ++ nl ++
            "Polarity: " ++ format_4f ext p ++ nl ++
            "Subjectivity: " ++ format_4f ext s).
Proof.
  intro Hl. unfold textblob_report. cbn [is_not_none fmt_4f]. rewrite Hl.
  now rewrite !append_assoc.
Qed.

(** The TextBlob block on whatever the wrapper returned: it never raises and
    it extends the text it is given. *)
Lemma textblob_report_returns (text head : string) :
  exists tail,
    textblob_report ext (fst (textblob_pair_of ext text))
      (snd (textblob_pair_of ext text)) head = Return (head ++ tail).
Proof.
  unfold textblob_pair_of.
  destruct (blob_sentiment ext text) as [[p s]|e]; cbn [fst snd].
  - destruct (textblob_label_float p) as (label & Hl & _).
    rewrite (textblob_report_scored _ _ _ _ Hl). now eexists.
  - now eexists.
Qed.

(** Once VADER returned a dict, the report is stored whatever happens to
    the TextBlob call and to the chart. *)
Lemma run_analysis_scored (text : string) (d : dict) (w : World) :
  polarity_scores ext text = Return d ->
  exists head tail,
    vader_report ext (VScores d) = Return head /\
    textblob_report ext (fst (textblob_pair_of ext text))
      (snd (textblob_pair_of ext text)) head = Return (head ++ tail) /\
    stored (exec (run_analysis ext text) w) =
      (head ++ tail, VScores d, fst (textblob_pair_of ext text),
       snd (textblob_pair_of ext text), file_content w) /\
    result_label (exec (run_analysis ext text) w) = head ++ tail /\
    trace (exec (run_analysis ext text) w) =
      (trace w ++ [VaderCall text; TextBlobCall text])%list.
Proof.
  intro Hd.
  destruct (vader_report_returns d) as (head & Hhead & _).
  destruct (textblob_report_returns text head) as (tail & Htail).
  exists head, tail. split; [exact Hhead|]. split; [exact Htail|].
  unfold exec. rewrite run_analysis_run. unfold vader_value_of.
  rewrite Hd. cbv zeta. rewrite Hhead, Htail.
  match goal with
  | |- context [plot ext ?v ?p ?s ?w0] =>
      destruct (plot_frame v p s w0) as (Hs & _ & Hl & Ht)
  end.
  unfold exec in Hs, Hl, Ht. rewrite Hs, Hl, Ht.
  repeat split. cbn. now rewrite <- app_assoc.
Qed.

End Runs.

Section Frames.

Variable ext : Externals.





(** The page loop stops at the first page that cannot be loaded or read. *)
Lemma pdf_pages_stops (doc : Document ext) (n : nat) (e : exn) :
  (load_page ext doc n = Raise e \/
   exists page, load_page ext doc n = Return page /\
                get_text ext page = Raise e) ->
  forall (len a : nat) (content : string),
  (a <= n < a + len)%nat ->
  (forall i, (a <= i < n)%nat ->
     exists page text,
       load_page ext doc i = Return page /\ get_text ext page = Return text) ->
  pdf_pages ext doc (seq a len) content = Raise e.
Proof.
  intros Hfail. induction len as [|len IH]; intros a content Hn Hok; [lia|].
  cbn [seq pdf_pages].
  destruct (Nat.eq_dec a n) as [->|Hne].
  - destruct Hfail as [Hl|(page & Hl & Hg)]; rewrite Hl; [reflexivity|].
    now rewrite Hg.
  - destruct (Hok a) as (page & text & Hl & Hg); [lia|].
    rewrite Hl, Hg. apply IH; [lia|]. intros i Hi. apply Hok. lia.
Qed.

End Frames.

(** * The claims *)

Lemma stored_results (w : World) r v p s f :
  stored w = (r, v, p, s, f) -> results w = r.
Proof. unfold stored. now inversion 1. Qed.

(** ** Overall sentiment (VADER) *)




(** ** Sentiment label (TextBlob) *)

(** C6.  When the TextBlob scorer returns the pair (p, s) for the analysed
    text (and the analysis got as far as the TextBlob step, that is the VADER
    scorer returned a dict), the stored report is the VADER part followed by
    the TextBlob lines, and the label in them is "Positive" exactly when
    p > 0, "Negative" exactly when p < 0 and "Neutral" exactly when p == 0. *)
Theorem C6_textblob_label_follows_polarity_sign
    (ext : Externals) (w : World) (d : dict) (p s : Q) :
  Str.truthy (input_text w) = true ->
  polarity_scores ext (input_text w) = Return d ->
  blob_sentiment ext (input_text w) = Return (p, s) ->
  exists head label,
    vader_report ext (VScores d) = Return head /\
    textblob_label (PFloat p) = Return label /\
    results (exec (perform_analysis ext) w) =
      head ++ "Overall Sentiment (TextBlob): " ++ label ++ nl ++
      "Polarity: " ++ format_4f ext p ++ nl ++
      "Subjectivity: " ++ format_4f ext s /\
    (label = "Positive" <-> (p > 0)%Q) /\
    (label = "Negative" <-> (p < 0)%Q) /\
    (label = "Neutral" <-> (p == 0)%Q).
Proof.
  intros Ht Hd Hb.
  destruct (run_analysis_scored ext (input_text w) d w Hd)
    as (head & tail & Hhead & Htail & Hstored & _).
  destruct (textblob_label_float p) as (label & Hl & Hpos & Hneg & Hneu).
  unfold textblob_pair_of in Htail, Hstored. rewrite Hb in Htail, Hstored.
  cbn [fst snd] in Htail, Hstored.
  rewrite (textblob_report_scored ext p s head label Hl) in Htail.
  assert (Heq : head ++ tail =
                head ++ "Overall Sentiment (TextBlob): " ++ label ++ nl ++
                "Polarity: " ++ format_4f ext p ++ nl ++
                "Subjectivity: " ++ format_4f ext s) by congruence.
  exists head, label. repeat split; try tauto.
  unfold exec in *. rewrite perform_analysis_nonempty by exact Ht.
  now rewrite (stored_results _ _ _ _ _ _ Hstored), Heq.
Qed.

Lemma C6_witness :
  exists head label,
    vader_report Sample.healthy (VScores Sample.love_scores) = Return head /\
    textblob_label (PFloat 0.625) = Return label /\
    results (exec (perform_analysis Sample.healthy)
               (Sample.typed Sample.love_text)) =
      head ++ "Overall Sentiment (TextBlob): " ++ label ++ nl ++
      "Polarity: " ++ format_4f Sample.healthy 0.625 ++ nl ++
      "Subjectivity: " ++ format_4f Sample.healthy 0.6 /\
    (label = "Positive" <-> (0.625 > 0)%Q) /\
    (label = "Negative" <-> (0.625 < 0)%Q) /\
    (label = "Neutral" <-> (0.625 == 0)%Q).
Proof.
  apply (C6_textblob_label_follows_polarity_sign
           Sample.healthy (Sample.typed Sample.love_text)
           Sample.love_scores 0.625 0.6); reflexivity.
Defined.

(** ** Scorer failures *)

(** X16.  When the TextBlob scorer raises, the wrapper hands back
    [(None, str(e))], the VADER part of the report is kept and the TextBlob
    failure is written after it. *)
Lemma textblob_failure_is_reported
    (ext : Externals) (w : World) (d : dict) (e : exn) :
  Str.truthy (input_text w) = true ->
  polarity_scores ext (input_text w) = Return d ->
  blob_sentiment ext (input_text w) = Raise e ->
  exists head,
    vader_report ext (VScores d) = Return head /\
    stored (exec (perform_analysis ext) w) =
      (head ++ "Error analyzing sentiment with TextBlob.",
       VScores d, PNone, PStr (exn_msg e), file_content w).
Proof.
  intros Ht Hd Hb.
  destruct (run_analysis_scored ext (input_text w) d w Hd)
    as (head & tail & Hhead & Htail & Hstored & _).
  unfold textblob_pair_of in Htail, Hstored. rewrite Hb in Htail, Hstored.
  cbn [fst snd] in Htail, Hstored.
  assert (Heq : head ++ tail =
                head ++ "Error analyzing sentiment with TextBlob.")
    by (unfold textblob_report in Htail; cbn [is_not_none] in Htail;
        congruence).
  exists head. split; [exact Hhead|].
  unfold exec in *. rewrite perform_analysis_nonempty by exact Ht.
  now rewrite Hstored, Heq.
Qed.

(** C2, the code at a failing input.  The user typed "I love this!"; the
    VADER scorer raises IndexError and the TextBlob scorer would return
    (0.625, 0.6).  The wrapper returns the pair [(None, str(e))], which is
    true in the test [if self.vader_scores], so [max(.., key=...get)] is
    reached and raises AttributeError out of [perform_analysis]: the TextBlob
    scorer is never called, and neither the report nor the label is
    written. *)
Theorem C2_vader_failure_escapes_as_attribute_error :
  input_text (Sample.typed Sample.love_text) = "I love this!" /\
  polarity_scores Sample.vader_down "I love this!"
    = Raise (Exn "IndexError" "list index out of range") /\
  blob_sentiment Sample.vader_down "I love this!" = Return (0.625, 0.6)%Q /\
  perform_analysis Sample.vader_down (Sample.typed Sample.love_text) =
    (Raise (Exn "AttributeError" "'tuple' object has no attribute 'get'"),
     mkWorld "" (VError "list index out of range") PNone PNone ""
             "I love this!" "" [] [VaderCall "I love this!"]).
Proof.
  repeat split.
Qed.

(** C10, the code at a failing input.  On a fresh application the user typed
    "I love this!" and the VADER scorer raises: the input check is passed,
    yet [self.results] is still the empty string after the call, and the save
    that follows is turned down with the "No Results" warning. *)
Theorem C10_results_stay_empty_when_vader_fails :
  Str.truthy (input_text (Sample.typed Sample.love_text)) = true /\
  results (exec (perform_analysis Sample.vader_down)
             (Sample.typed Sample.love_text)) = "" /\
  save_results Sample.vader_down "out.txt"
    (exec (perform_analysis Sample.vader_down)
       (Sample.typed Sample.love_text)) =
    (Return tt,
     mkWorld "" (VError "list index out of range") PNone PNone ""
             "I love this!" "" []
             [VaderCall "I love this!"; no_results_warning]).
Proof.
  repeat split.
Qed.

(** X17.  Once the VADER scorer returned a dict, the stored report is not
    empty, whatever the TextBlob scorer and the chart do. *)
Lemma results_nonempty_when_vader_scored
    (ext : Externals) (w : World) (d : dict) :
  Str.truthy (input_text w) = true ->
  polarity_scores ext (input_text w) = Return d ->
  Str.truthy (results (exec (perform_analysis ext) w)) = true.
Proof.
  intros Ht Hd.
  destruct (run_analysis_scored ext (input_text w) d w Hd)
    as (head & tail & Hhead & _ & Hstored & _).
  destruct (vader_report_returns ext d) as (head' & Hhead' & Hne).
  assert (head' = head) by congruence. subst head'.
  unfold exec in *. rewrite perform_analysis_nonempty by exact Ht.
  rewrite (stored_results _ _ _ _ _ _ Hstored).
  now apply append_truthy.
Qed.

(** ** Repeatability *)


(** ** File extraction *)

(** C4.  Whenever the extraction of a txt, csv or pdf file fails, whether
    the text file cannot be read or decoded, the CSV cannot be parsed, the
    PDF cannot be opened or one of its pages cannot be read after earlier
    pages were, [process_file] raises that very exception and so returns no
    text: the pages read so far are dropped with the local [content]. *)
Theorem C4_extraction_failure_is_raised
    (ext : Externals) (path file_type : string) (e : exn) (w : World) :
  extraction_fails ext path file_type e ->
  result (process_file ext path file_type) w = Raise e /\
  (forall text, result (process_file ext path file_type) w <> Return text) /\
  snapshot (exec (process_file ext path file_type) w) = snapshot w.
Proof.
  intro Hfail.
  assert (Hrun : process_file ext path file_type w =
                 (Raise e, logged (FileRead path) w)).
  { destruct Hfail as [e He | e He | df e Hdf He | e He | doc n e Hdoc Hn Hok He];
      run; cbn [String.eqb Ascii.eqb Bool.eqb].
    - now rewrite He.
    - now rewrite He.
    - now rewrite Hdf, He.
    - now rewrite He.
    - rewrite Hdoc.
      rewrite (pdf_pages_stops ext doc n e He (page_count ext doc) 0 "");
        [reflexivity|lia|].
      intros i Hi. apply Hok. lia. }
  unfold result, exec. rewrite Hrun. cbn [fst snd].
  repeat split. discriminate.
Qed.

(** The second page of "report.pdf" cannot be loaded: the text of its first
    page is not returned. *)
Lemma C4_witness :
  result (process_file Sample.healthy "report.pdf" "pdf") init =
    Raise (Exn "RuntimeError" "cannot load page") /\
  (forall text,
     result (process_file Sample.healthy "report.pdf" "pdf") init
       <> Return text) /\
  snapshot (exec (process_file Sample.healthy "report.pdf" "pdf") init) =
    snapshot init.
Proof.
  apply (C4_extraction_failure_is_raised Sample.healthy "report.pdf" "pdf").
  apply (pdf_page_fails Sample.healthy "report.pdf"
           Sample.pdf_pages_on_disk 1).
  - reflexivity.
  - simpl. lia.
  - intros i Hi. assert (i = 0)%nat as -> by lia.
    exists (Return "first page. "), "first page. ". split; reflexivity.
  - right. exists (Raise (Exn "RuntimeError" "cannot load page")).
    split; reflexivity.
Defined.

(** C8.  For a declared type other than "txt", "csv" and "pdf",
    [process_file] returns the empty string; it raises nothing and leaves
    the world, trace included, as it was: no file is opened. *)
Theorem C8_unknown_type_yields_empty_text
    (ext : Externals) (path file_type : string) (w : World) :
  file_type <> "txt" -> file_type <> "csv" -> file_type <> "pdf" ->
  process_file ext path file_type w = (Return "", w).
Proof.
  intros Htxt Hcsv Hpdf. unfold process_file.
  apply String.eqb_neq in Htxt, Hcsv, Hpdf.
  now rewrite Htxt, Hcsv, Hpdf.
Qed.

Lemma C8_witness :
  process_file Sample.healthy "notes.TXT" "TXT" init = (Return "", init).
Proof.
  apply (C8_unknown_type_yields_empty_text Sample.healthy "notes.TXT" "TXT");
    discriminate.
Defined.

(** Through the upload button: an upper-case extension is not recognised,
    so the file content and the entry box are both emptied. *)
Example upload_upper_case_extension :
  Str.extension "notes.TXT" = "TXT" /\
  upload_file Sample.healthy "notes.TXT"
    (set_file_content "old" (Sample.typed "old")) =
    (Return tt,
     mkWorld "" VNone PNone PNone "" "" "" [] [OpenFileDialog]).
Proof. split; reflexivity. Qed.

(** ** Saving and the input check *)

(** C5.  With an empty stored report, the save handler ends normally after
    showing the "No Results" warning and nothing else: no dialog is opened,
    no file is written, and every attribute and widget is unchanged. *)
Theorem C5_save_without_results_is_rejected
    (ext : Externals) (chosen : string) (w : World) :
  results w = "" ->
  result (save_results ext chosen) w = Return tt /\
  trace (exec (save_results ext chosen) w) =
    (trace w ++ [no_results_warning])%list /\
  snapshot (exec (save_results ext chosen) w) = snapshot w.
Proof.
  intro H. run. rewrite H. repeat split.
Qed.

Lemma C5_witness :
  result (save_results Sample.healthy "out.txt") init = Return tt /\
  trace (exec (save_results Sample.healthy "out.txt") init) =
    ([] ++ [no_results_warning])%list /\
  snapshot (exec (save_results Sample.healthy "out.txt") init) =
    snapshot init.
Proof.
  apply (C5_save_without_results_is_rejected Sample.healthy "out.txt" init).
  reflexivity.
Defined.

(** C9.  When the stripped entry text and the stored file content are both
    empty, [perform_analysis] returns after showing the "Input Error"
    warning; no scorer is called and every stored attribute and widget is
    as before. *)
Theorem C9_empty_input_changes_nothing (ext : Externals) (w : World) :
  Str.strip (text_entry w) = "" ->
  file_content w = "" ->
  result (perform_analysis ext) w = Return tt /\
  trace (exec (perform_analysis ext) w) = (trace w ++ [input_warning])%list /\
  stored (exec (perform_analysis ext) w) = stored w /\
  snapshot (exec (perform_analysis ext) w) = snapshot w.
Proof.
  intros Hs Hf.
  assert (Ht : Str.truthy (input_text w) = false)
    by (unfold input_text; now rewrite Hs, Hf).
  unfold result, exec. rewrite (perform_analysis_empty ext w Ht).
  repeat split.
Qed.

(** Blanks only in the entry box, results of an earlier analysis stored. *)
Lemma C9_witness :
  result (perform_analysis Sample.healthy)
    (set_results "earlier report" (Sample.typed "   ")) = Return tt /\
  trace (exec (perform_analysis Sample.healthy)
           (set_results "earlier report" (Sample.typed "   "))) =
    ([] ++ [input_warning])%list /\
  stored (exec (perform_analysis Sample.healthy)
            (set_results "earlier report" (Sample.typed "   "))) =
    stored (set_results "earlier report" (Sample.typed "   ")) /\
  snapshot (exec (perform_analysis Sample.healthy)
              (set_results "earlier report" (Sample.typed "   "))) =
    snapshot (set_results "earlier report" (Sample.typed "   ")).
Proof.
  apply (C9_empty_input_changes_nothing Sample.healthy
           (set_results "earlier report" (Sample.typed "   ")));
    reflexivity.
Defined.

(** ** Ranges of the TextBlob pair *)





(** * Further properties of the code *)

(** ** The file extractor *)

Lemma pdf_pages_all (ext : Externals) (doc : Document ext)
    (pages : nat -> Page ext) (texts : nat -> string) :
  forall (count first : nat) (content : string),
  (forall i, (first <= i < first + count)%nat ->
     load_page ext doc i = Return (pages i) /\
     get_text ext (pages i) = Return (texts i)) ->
  pdf_pages ext doc (seq first count) content =
    Return (content ++ pages_text texts first count).
Proof.
  unfold pages_text.
  induction count as [|count IH]; intros first content Hok; cbn [seq pdf_pages map fold_right].
  - f_equal. induction content as [|c content IHc]; simpl; congruence.
  - destruct (Hok first) as [Hl Hg]; [lia|].
    rewrite Hl, Hg, IH by (intros i Hi; apply Hok; lia).
    now rewrite append_assoc.
Qed.

(** X1.  When the PDF opens and each of its pages loads and yields its
    text, [process_file] returns the texts of all pages joined in page
    order, with nothing between them, after a single read of the path; a
    PDF without pages gives the empty string. *)
Theorem process_file_pdf_joins_pages_in_order
    (ext : Externals) (path : string) (doc : Document ext)
    (pages : nat -> Page ext) (texts : nat -> string) (w : World) :
  fitz_open ext path = Return doc ->
  (forall i, (i < page_count ext doc)%nat ->
     load_page ext doc i = Return (pages i) /\
     get_text ext (pages i) = Return (texts i)) ->
  process_file ext path "pdf" w =
    (Return (pages_text texts 0 (page_count ext doc)),
     logged (FileRead path) w).
Proof.
  intros Hopen Hok. run. cbn [String.eqb Ascii.eqb Bool.eqb].
  rewrite Hopen.
  rewrite (pdf_pages_all ext doc pages texts (page_count ext doc) 0 "")
    by (intros i Hi; apply Hok; lia).
  reflexivity.
Qed.

Lemma process_file_pdf_joins_pages_in_order_witness :
  process_file Shelf.ext "clean.pdf" "pdf" init =
    (Return "first page. second page.", logged (FileRead "clean.pdf") init).
Proof.
  apply (process_file_pdf_joins_pages_in_order Shelf.ext "clean.pdf"
           Shelf.clean_pdf
           (fun i => nth i Shelf.clean_pdf (Return ""))
           (fun i => nth i ["first page. "; "second page."] "") init).
  - reflexivity.
  - simpl. intros i Hi.
    destruct i as [|[|i]]; [split; reflexivity .. | lia].
Defined.

Lemma process_file_snapshot
    (ext : Externals) (path file_type : string) (w : World) :
  snapshot (exec (process_file ext path file_type) w) = snapshot w.
Proof.
  run.
  destruct (file_type =? "txt").
  { now destruct (open_read ext path). }
  destruct (file_type =? "csv").
  { destruct (read_csv ext path) as [df|]; [|reflexivity].
    now destruct (to_string ext df). }
  destruct (file_type =? "pdf"); [|reflexivity].
  destruct (fitz_open ext path) as [doc|]; [|reflexivity].
  now destruct (pdf_pages ext doc _ _).
Qed.

(** X2.  Whatever the path, the declared type and the files on disk,
    [process_file] leaves every attribute and widget alone, and the only
    effect it can have is one read, of the path it was given. *)
Theorem process_file_touches_only_its_path
    (ext : Externals) (path file_type : string) (w : World) :
  snapshot (exec (process_file ext path file_type) w) = snapshot w /\
  (trace (exec (process_file ext path file_type) w) = trace w \/
   trace (exec (process_file ext path file_type) w) =
     (trace w ++ [FileRead path])%list).
Proof.
  run.
  destruct (file_type =? "txt").
  { destruct (open_read ext path); split; auto. }
  destruct (file_type =? "csv").
  { destruct (read_csv ext path) as [df|]; [|split; auto].
    destruct (to_string ext df); split; auto. }
  destruct (file_type =? "pdf").
  { destruct (fitz_open ext path) as [doc|]; [|split; auto].
    destruct (pdf_pages ext doc _ _); split; auto. }
  split; auto.
Qed.

(** ** The declared type: [file_path.split('.')[-1]] *)

Lemma split_nonempty (sep : ascii) (s : string) : Str.split sep s <> [].
Proof.
  destruct s as [|c s]; simpl; [discriminate|].
  destruct (Ascii.eqb c sep); [discriminate|].
  destruct (Str.split sep s); discriminate.
Qed.

Lemma last_cons_nonempty {A} (x : A) (l : list A) (d : A) :
  l <> [] -> last (x :: l) d = last l d.
Proof. destruct l; [congruence|reflexivity]. Qed.

Lemma split_no_sep (sep : ascii) (s : string) :
  contains sep s = false -> Str.split sep s = [s].
Proof.
  induction s as [|c s IH]; simpl; [reflexivity|].
  destruct (Ascii.eqb c sep); [discriminate|]. simpl.
  intro H. now rewrite IH.
Qed.

Lemma split_single (sep : ascii) (s h : string) :
  Str.split sep s = [h] -> contains sep s = false /\ h = s.
Proof.
  revert h. induction s as [|c s IH]; simpl; intros h H.
  - split; congruence.
  - destruct (Ascii.eqb c sep).
    + exfalso. inversion H as [[Hh Ht]]. now apply (split_nonempty sep s).
    + destruct (Str.split sep s) as [|a [|b l]] eqn:Hs.
      * exfalso. now apply (split_nonempty sep s).
      * destruct (IH a eq_refl) as [Hc ->]. simpl. split; congruence.
      * discriminate.
Qed.

(** The last field holds no separator, and the string ends with it: the
    string is that field alone when it holds no separator, and otherwise
    something, a separator, and the field. *)
Lemma split_last_spec (sep : ascii) (s : string) :
  contains sep (last (Str.split sep s) "") = false /\
  ((contains sep s = false /\ last (Str.split sep s) "" = s) \/
   (exists prefix,
      s = prefix ++ String sep (last (Str.split sep s) ""))).
Proof.
  induction s as [|c s (IHno & IH)].
  - simpl. split; [reflexivity|]. left. split; reflexivity.
  - cbn [Str.split contains]. destruct (Ascii.eqb c sep) eqn:E.
    + rewrite last_cons_nonempty by apply split_nonempty.
      split; [exact IHno|]. right.
      apply Ascii.eqb_eq in E. subst c.
      destruct IH as [(_ & Hl) | (prefix & Hp)].
      * exists "". now rewrite Hl.
      * exists (String sep prefix). simpl. now rewrite <- Hp.
    + destruct (Str.split sep s) as [|h [|h' t]] eqn:Hs.
      * exfalso. now apply (split_nonempty sep s).
      * destruct (split_single sep s h Hs) as [Hc ->].
        cbn [last contains orb]. rewrite E, Hc.
        split; [reflexivity|]. left. split; reflexivity.
      * change (last (String c h :: h' :: t) "") with (last (h' :: t) "").
        change (last (h :: h' :: t) "") with (last (h' :: t) "") in *.
        split; [exact IHno|]. right.
        destruct IH as [(Hc & _) | (prefix & Hp)].
        -- rewrite (split_no_sep sep s Hc) in Hs. discriminate.
        -- exists (String c prefix). cbn [append]. congruence.
Qed.

(** X3.  The declared type computed by [upload_file] never holds a dot and
    the path ends with it: it is the whole path when the path has no dot,
    and otherwise what follows the last dot. *)
Theorem extension_is_what_follows_the_last_dot (path : string) :
  contains "." (Str.extension path) = false /\
  ((contains "." path = false /\ Str.extension path = path) \/
   (exists prefix, path = prefix ++ "." ++ Str.extension path)).
Proof. exact (split_last_spec "."%char path). Qed.

Lemma contains_app_sep (sep : ascii) (a b : string) :
  contains sep (a ++ String sep b) = true.
Proof.
  induction a as [|c a IH]; simpl.
  - now rewrite Ascii.eqb_refl.
  - rewrite IH. apply orb_true_r.
Qed.

Lemma last_split_suffix (sep : ascii) (base e : string) :
  last (Str.split sep (base ++ String sep e)) "" = last (Str.split sep e) "".
Proof.
  induction base as [|c base IH].
  - cbn [append Str.split]. rewrite Ascii.eqb_refl.
    apply last_cons_nonempty, split_nonempty.
  - cbn [append Str.split]. destruct (Ascii.eqb c sep).
    + rewrite last_cons_nonempty by apply split_nonempty. exact IH.
    + destruct (Str.split sep (base ++ String sep e)) as [|h [|h' t]] eqn:Hs.
      * exfalso. now apply (split_nonempty sep (base ++ String sep e)).
      * exfalso. destruct (split_single _ _ _ Hs) as [Hc _].
        rewrite contains_app_sep in Hc. discriminate.
      * exact IH.
Qed.

(** X4.  A path made of anything, a dot and a dot-free suffix is declared
    with that suffix as its type, however many dots come before. *)
Theorem extension_of_dotted_path (base e : string) :
  contains "." e = false ->
  Str.extension (base ++ "." ++ e) = e.
Proof.
  intro H. unfold Str.extension.
  change (base ++ "." ++ e) with (base ++ String "." e).
  rewrite last_split_suffix, (split_no_sep _ _ H). reflexivity.
Qed.

Lemma extension_of_dotted_path_witness :
  Str.extension ("my.notes.v2" ++ "." ++ "txt") = "txt".
Proof.
  apply (extension_of_dotted_path "my.notes.v2" "txt"). reflexivity.
Defined.

(** ** The upload button *)

Lemma truthy_app_sep (a b : string) (c : ascii) :
  Str.truthy (a ++ String c b) = true.
Proof. now destruct a. Qed.

(** X5.  Choosing a path that ends in ".txt" whose file reads well puts the
    text both in [self.file_content] and in the entry box, replacing what
    was typed; the report, scores and chart of an earlier analysis stay. *)
Theorem upload_text_file_fills_content_and_entry
    (ext : Externals) (base content : string) (w : World) :
  open_read ext (base ++ ".txt") = Return content ->
  upload_file ext (base ++ ".txt") w =
    (Return tt,
     mkWorld (results w) (vader_scores w) (polarity w) (subjectivity w)
             content content (result_label w) (chart w)
             (trace w ++ [OpenFileDialog; FileRead (base ++ ".txt")])%list).
Proof.
  intro Hread.
  pose proof (extension_of_dotted_path base "txt" eq_refl) as Hext.
  change (base ++ "." ++ "txt") with (base ++ ".txt") in Hext.
  unfold upload_file, bind, emit, modify, gets.
  change (base ++ ".txt") with (base ++ String "." "txt") at 1.
  rewrite truthy_app_sep. rewrite Hext.
  unfold process_file, bind, emit, modify, lift, ret.
  cbn [String.eqb Ascii.eqb Bool.eqb]. rewrite Hread.
  cbn. now rewrite <- app_assoc.
Qed.

Lemma upload_text_file_fills_content_and_entry_witness :
  upload_file Sample.healthy ("notes" ++ ".txt") (Sample.typed "typed before") =
    (Return tt,
     mkWorld "" VNone PNone PNone "I love this!" "I love this!" "" []
             [OpenFileDialog; FileRead "notes.txt"]).
Proof.
  apply (upload_text_file_fills_content_and_entry Sample.healthy "notes"
           "I love this!" (Sample.typed "typed before")).
  reflexivity.
Defined.

Lemma process_file_raises
    (ext : Externals) (path file_type : string) (e : exn) (w : World) :
  extraction_fails ext path file_type e ->
  process_file ext path file_type w = (Raise e, logged (FileRead path) w).
Proof.
  intros [e0 He | e0 He | df e0 Hdf He | e0 He | doc n e0 Hdoc Hn Hok He];
    run; cbn [String.eqb Ascii.eqb Bool.eqb].
  - now rewrite He.
  - now rewrite He.
  - now rewrite Hdf, He.
  - now rewrite He.
  - rewrite Hdoc.
    rewrite (pdf_pages_stops ext doc n e0 He (page_count ext doc) 0 "");
      [reflexivity|lia|].
    intros i Hi. apply Hok. lia.
Qed.

(** X6.  When the extraction of the chosen file fails, [upload_file] raises
    the same exception and assigns nothing: the file content and the entry
    box keep what they held. *)
Theorem upload_failure_keeps_previous_content
    (ext : Externals) (chosen : string) (e : exn) (w : World) :
  Str.truthy chosen = true ->
  extraction_fails ext chosen (Str.extension chosen) e ->
  result (upload_file ext chosen) w = Raise e /\
  snapshot (exec (upload_file ext chosen) w) = snapshot w.
Proof.
  intros Ht Hfail.
  unfold result, exec, upload_file, bind, emit, modify. rewrite Ht.
  fold (logged OpenFileDialog w).
  rewrite (process_file_raises ext chosen _ e _ Hfail).
  split; reflexivity.
Qed.

Lemma upload_failure_keeps_previous_content_witness :
  result (upload_file Sample.healthy "report.pdf")
    (set_file_content "old file" (Sample.typed "old file")) =
    Raise (Exn "RuntimeError" "cannot load page") /\
  snapshot (exec (upload_file Sample.healthy "report.pdf")
              (set_file_content "old file" (Sample.typed "old file"))) =
    snapshot (set_file_content "old file" (Sample.typed "old file")).
Proof.
  apply (upload_failure_keeps_previous_content Sample.healthy "report.pdf").
  - reflexivity.
  - apply (pdf_page_fails Sample.healthy "report.pdf"
             Sample.pdf_pages_on_disk 1).
    + reflexivity.
    + simpl. lia.
    + intros i Hi. assert (i = 0)%nat as -> by lia.
      exists (Return "first page. "), "first page. ". split; reflexivity.
    + right. exists (Raise (Exn "RuntimeError" "cannot load page")).
      split; reflexivity.
Defined.

(** X7.  Choosing a file whose declared type is none of "txt", "csv" and
    "pdf" reads nothing and empties both the file content and the entry
    box: what the user had typed or uploaded before is gone. *)
Theorem upload_of_unknown_type_empties_the_entry
    (ext : Externals) (chosen : string) (w : World) :
  Str.truthy chosen = true ->
  Str.extension chosen <> "txt" ->
  Str.extension chosen <> "csv" ->
  Str.extension chosen <> "pdf" ->
  upload_file ext chosen w =
    (Return tt,
     mkWorld (results w) (vader_scores w) (polarity w) (subjectivity w)
             "" "" (result_label w) (chart w)
             (trace w ++ [OpenFileDialog])%list).
Proof.
  intros Ht Htxt Hcsv Hpdf.
  apply String.eqb_neq in Htxt, Hcsv, Hpdf.
  unfold upload_file, process_file, bind, emit, modify, gets, ret.
  now rewrite Ht, Htxt, Hcsv, Hpdf.
Qed.

Lemma upload_of_unknown_type_empties_the_entry_witness :
  upload_file Sample.healthy "notes.TXT"
    (set_file_content "old file" (Sample.typed "typed text")) =
    (Return tt,
     mkWorld "" VNone PNone PNone "" "" "" [] [OpenFileDialog]).
Proof.
  apply (upload_of_unknown_type_empties_the_entry Sample.healthy "notes.TXT"
           (set_file_content "old file" (Sample.typed "typed text")));
    [reflexivity | discriminate ..].
Defined.

(** X8.  Whatever is chosen and whatever happens to the extraction,
    [upload_file] leaves the stored report, the scores, the label and the
    chart of the last analysis as they are; cancelling the dialog changes
    nothing at all. *)
Theorem upload_keeps_the_last_analysis
    (ext : Externals) (chosen : string) (w : World) :
  results (exec (upload_file ext chosen) w) = results w /\
  vader_scores (exec (upload_file ext chosen) w) = vader_scores w /\
  polarity (exec (upload_file ext chosen) w) = polarity w /\
  subjectivity (exec (upload_file ext chosen) w) = subjectivity w /\
  result_label (exec (upload_file ext chosen) w) = result_label w /\
  chart (exec (upload_file ext chosen) w) = chart w /\
  upload_file ext "" w = (Return tt, logged OpenFileDialog w).
Proof.
  assert (Hframe : snapshot (exec (process_file ext chosen
                     (Str.extension chosen)) (logged OpenFileDialog w)) =
                   snapshot (logged OpenFileDialog w))
    by apply process_file_snapshot.
  unfold exec, upload_file, bind, emit, modify, gets in *.
  fold (logged OpenFileDialog w).
  destruct (Str.truthy chosen); [|repeat split].
  destruct (process_file ext chosen (Str.extension chosen)
              (logged OpenFileDialog w)) as [[c|e] w'];
    cbn [fst snd] in *; unfold snapshot, stored in Hframe;
    inversion Hframe; repeat split; assumption.
Qed.

(** ** The save button *)

(** X9.  With a report stored and a path chosen that can be written,
    [save_results] writes exactly the stored report to exactly that path and
    only then announces success; the attributes and widgets are unchanged. *)
Theorem save_writes_the_stored_report
    (ext : Externals) (chosen : string) (w : World) :
  Str.truthy (results w) = true ->
  Str.truthy chosen = true ->
  open_write ext chosen (results w) = Return tt ->
  result (save_results ext chosen) w = Return tt /\
  trace (exec (save_results ext chosen) w) =
    (trace w ++ [SaveFileDialog; FileWrite chosen (results w);
                 MsgInformation "Save Results" "Results saved successfully!"])%list /\
  snapshot (exec (save_results ext chosen) w) = snapshot w.
Proof.
  intros Hr Hc Hw. run. rewrite Hr, Hc. unfold modify.
  cbn [results set_trace]. rewrite Hw.
  cbn. rewrite <- !app_assoc. repeat split.
Qed.

Lemma save_writes_the_stored_report_witness :
  result (save_results Shelf.ext "out.txt") (set_results "report" init)
    = Return tt /\
  trace (exec (save_results Shelf.ext "out.txt") (set_results "report" init)) =
    ([] ++ [SaveFileDialog; FileWrite "out.txt" "report";
            MsgInformation "Save Results" "Results saved successfully!"])%list /\
  snapshot (exec (save_results Shelf.ext "out.txt") (set_results "report" init))
    = snapshot (set_results "report" init).
Proof.
  apply (save_writes_the_stored_report Shelf.ext "out.txt"
           (set_results "report" init)); reflexivity.
Defined.

(** X10.  When the chosen path cannot be written, [save_results] raises the
    exception of [open]: nothing is recorded as written, no success message
    is shown, and the stored report is kept. *)
Theorem save_failure_shows_no_success
    (ext : Externals) (chosen : string) (e : exn) (w : World) :
  Str.truthy (results w) = true ->
  Str.truthy chosen = true ->
  open_write ext chosen (results w) = Raise e ->
  result (save_results ext chosen) w = Raise e /\
  trace (exec (save_results ext chosen) w) =
    (trace w ++ [SaveFileDialog])%list /\
  snapshot (exec (save_results ext chosen) w) = snapshot w.
Proof.
  intros Hr Hc Hw. run. rewrite Hr, Hc. unfold modify.
  cbn [results set_trace]. rewrite Hw.
  repeat split.
Qed.

Lemma save_failure_shows_no_success_witness :
  result (save_results Shelf.ext "/locked/out.txt") (set_results "report" init)
    = Raise (Exn "PermissionError" "/locked/out.txt") /\
  trace (exec (save_results Shelf.ext "/locked/out.txt")
           (set_results "report" init)) = ([] ++ [SaveFileDialog])%list /\
  snapshot (exec (save_results Shelf.ext "/locked/out.txt")
              (set_results "report" init)) =
    snapshot (set_results "report" init).
Proof.
  apply (save_failure_shows_no_success Shelf.ext "/locked/out.txt"
           (Exn "PermissionError" "/locked/out.txt")
           (set_results "report" init)); reflexivity.
Defined.

(** X11.  Whatever is stored and whatever is chosen, [save_results] never
    changes an attribute or a widget, and its visible effects are one of
    three: the "No Results" warning alone, the save dialog alone (cancelled,
    or the write failed), or the dialog, one write of the stored report to
    the chosen path, and the success message. *)
Theorem save_changes_no_state
    (ext : Externals) (chosen : string) (w : World) :
  snapshot (exec (save_results ext chosen) w) = snapshot w /\
  (trace (exec (save_results ext chosen) w) =
     (trace w ++ [no_results_warning])%list \/
   trace (exec (save_results ext chosen) w) =
     (trace w ++ [SaveFileDialog])%list \/
   trace (exec (save_results ext chosen) w) =
     (trace w ++ [SaveFileDialog; FileWrite chosen (results w);
                  MsgInformation "Save Results"
                    "Results saved successfully!"])%list).
Proof.
  run. destruct (Str.truthy (results w)); [|split; auto].
  destruct (Str.truthy chosen); [|split; auto].
  unfold modify. cbn [results set_trace].
  destruct (open_write ext chosen (results w)); [|split; auto].
  cbn. rewrite <- !app_assoc. split; auto.
Qed.

(** ** The clear button *)

(** X12.  [clear_text] brings every attribute and widget back to what
    [__init__] set, from any state and without any visible effect; right
    after it a save is turned down with the "No Results" warning and an
    analysis with the "Input Error" warning. *)
Theorem clear_resets_to_the_initial_state
    (ext : Externals) (chosen : string) (w : World) :
  result clear_text w = Return tt /\
  snapshot (exec clear_text w) = snapshot init /\
  trace (exec clear_text w) = trace w /\
  save_results ext chosen (exec clear_text w) =
    (Return tt, logged no_results_warning (exec clear_text w)) /\
  perform_analysis ext (exec clear_text w) =
    (Return tt, logged input_warning (exec clear_text w)).
Proof.
  unfold result, exec, clear_text, bind, modify, ret. cbn [fst snd]. world.
  repeat split.
Qed.

(** ** The input check *)

Lemma rstrip_blank (s : string) : blank s = true -> Str.rstrip s = "".
Proof.
  induction s as [|c s IH]; simpl; [reflexivity|].
  intro H. apply andb_true_iff in H as [Hc Hs].
  now rewrite (IH Hs), Hc.
Qed.

Lemma rstrip_empty (s : string) : Str.rstrip s = "" -> blank s = true.
Proof.
  induction s as [|c s IH]; simpl; [reflexivity|].
  destruct (Str.rstrip s) as [|c' r]; [|discriminate].
  destruct (Str.isspace c); [|discriminate].
  intros _. now rewrite IH.
Qed.

Lemma lstrip_blank (s : string) : blank (Str.lstrip s) = blank s.
Proof.
  induction s as [|c s IH]; simpl; [reflexivity|].
  destruct (Str.isspace c) eqn:E; simpl; [exact IH|now rewrite E].
Qed.

(** [s.strip()] is empty exactly when [s] holds white space only. *)
Lemma strip_empty_iff_blank (s : string) :
  Str.strip s = "" <-> blank s = true.
Proof.
  unfold Str.strip. split; intro H.
  - rewrite <- lstrip_blank. now apply rstrip_empty.
  - apply rstrip_blank. now rewrite lstrip_blank.
Qed.

Lemma truthy_false (s : string) : Str.truthy s = false <-> s = "".
Proof. destruct s; simpl; split; congruence. Qed.

Lemma input_text_empty (w : World) :
  Str.truthy (input_text w) = false <->
  blank (text_entry w) = true /\ file_content w = "".
Proof.
  unfold input_text, Str.or_else. rewrite <- strip_empty_iff_blank.
  destruct (Str.strip (text_entry w)) as [|c s] eqn:E; cbn [Str.truthy].
  - rewrite truthy_false. tauto.
  - split; [discriminate|]. intros [H _]. discriminate.
Qed.

(** Past the input check the first thing that happens is the VADER call on
    the analysed text. *)
Lemma run_analysis_trace_head (ext : Externals) (text : string) (w : World) :
  exists rest,
    trace (exec (run_analysis ext text) w) =
      (trace w ++ VaderCall text :: rest)%list.
Proof.
  unfold exec. rewrite run_analysis_run. cbv zeta.
  destruct (vader_report ext (vader_value_of ext text)) as [head|e].
  - destruct (textblob_report ext _ _ head) as [r|e].
    + match goal with
      | |- context [plot ext ?v ?p ?s ?w0] =>
          destruct (plot_frame ext v p s w0) as (_ & _ & _ & Ht)
      end.
      unfold exec in Ht. rewrite Ht. cbn. rewrite <- app_assoc.
      now eexists.
    + cbn. rewrite <- app_assoc. now eexists.
  - cbn. now eexists.
Qed.

(** X13.  [perform_analysis] stops at the "Input Error" warning, calling no
    scorer and changing nothing, exactly when the entry box holds white
    space only (or nothing) and no file content is stored. *)
Theorem input_is_rejected_iff_blank_and_no_file
    (ext : Externals) (w : World) :
  (blank (text_entry w) = true /\ file_content w = "") <->
  perform_analysis ext w = (Return tt, logged input_warning w).
Proof.
  rewrite <- input_text_empty. split; intro H.
  - now apply perform_analysis_empty.
  - destruct (Str.truthy (input_text w)) eqn:Ht; [|reflexivity].
    exfalso. rewrite perform_analysis_nonempty in H by exact Ht.
    destruct (run_analysis_trace_head ext (input_text w) w) as (rest & Hr).
    unfold exec in Hr. rewrite H in Hr. cbn in Hr.
    apply app_inv_head in Hr. discriminate.
Qed.

(** X14.  Text typed in the entry box wins over an uploaded file and is
    stripped first: when it is not blank, the scorers receive exactly the
    stripped entry text, whatever the stored file content. *)
Theorem typed_text_is_stripped_and_wins
    (ext : Externals) (w : World) :
  blank (text_entry w) = false ->
  input_text w = Str.strip (text_entry w) /\
  exists rest,
    trace (exec (perform_analysis ext) w) =
      (trace w ++ VaderCall (Str.strip (text_entry w)) :: rest)%list.
Proof.
  intro Hb.
  assert (Hne : Str.truthy (Str.strip (text_entry w)) = true).
  { destruct (Str.truthy (Str.strip (text_entry w))) eqn:E; [reflexivity|].
    apply truthy_false, strip_empty_iff_blank in E. congruence. }
  assert (Hin : input_text w = Str.strip (text_entry w))
    by (unfold input_text, Str.or_else; now rewrite Hne).
  split; [exact Hin|].
  unfold exec. rewrite perform_analysis_nonempty by now rewrite Hin.
  rewrite Hin. apply run_analysis_trace_head.
Qed.

Lemma typed_text_is_stripped_and_wins_witness :
  input_text (set_file_content "file text" (Sample.typed "  I love this! "))
    = Str.strip "  I love this! " /\
  exists rest,
    trace (exec (perform_analysis Sample.healthy)
             (set_file_content "file text" (Sample.typed "  I love this! "))) =
      ([] ++ VaderCall (Str.strip "  I love this! ") :: rest)%list.
Proof.
  apply (typed_text_is_stripped_and_wins Sample.healthy
           (set_file_content "file text" (Sample.typed "  I love this! "))).
  reflexivity.
Defined.

(** X15.  With a blank entry box, a stored file content is analysed as it
    is, not stripped: any non-empty content passes the input check, even
    one made of white space only. *)
Theorem file_content_is_analysed_unstripped
    (ext : Externals) (w : World) :
  blank (text_entry w) = true ->
  file_content w <> "" ->
  input_text w = file_content w /\
  exists rest,
    trace (exec (perform_analysis ext) w) =
      (trace w ++ VaderCall (file_content w) :: rest)%list.
Proof.
  intros Hb Hf.
  assert (Hin : input_text w = file_content w).
  { unfold input_text, Str.or_else.
    apply strip_empty_iff_blank in Hb. now rewrite Hb. }
  split; [exact Hin|].
  assert (Ht : Str.truthy (input_text w) = true).
  { rewrite Hin. destruct (file_content w); [congruence|reflexivity]. }
  unfold exec. rewrite perform_analysis_nonempty by exact Ht.
  rewrite Hin. apply run_analysis_trace_head.
Qed.

Lemma file_content_is_analysed_unstripped_witness :
  input_text (set_file_content "   " init) = "   " /\
  exists rest,
    trace (exec (perform_analysis Sample.healthy)
             (set_file_content "   " init)) =
      ([] ++ VaderCall "   " :: rest)%list.
Proof.
  apply (file_content_is_analysed_unstripped Sample.healthy
           (set_file_content "   " init)); [reflexivity|discriminate].
Defined.

(** ** The analysis, stage by stage *)

Lemma textblob_failure_is_reported_witness :
  exists head,
    vader_report Sample.textblob_down (VScores Sample.love_scores)
      = Return head /\
    stored (exec (perform_analysis Sample.textblob_down)
              (Sample.typed Sample.love_text)) =
      (head ++ "Error analyzing sentiment with TextBlob.",
       VScores Sample.love_scores, PNone,
       PStr (exn_msg (Exn "LookupError" "resource not found")),
       file_content (Sample.typed Sample.love_text)).
Proof.
  apply (textblob_failure_is_reported Sample.textblob_down
           (Sample.typed Sample.love_text) Sample.love_scores
           (Exn "LookupError" "resource not found")); reflexivity.
Defined.

Lemma results_nonempty_when_vader_scored_witness :
  Str.truthy (results (exec (perform_analysis Sample.textblob_down)
                         (Sample.typed Sample.love_text))) = true.
Proof.
  apply (results_nonempty_when_vader_scored Sample.textblob_down
           (Sample.typed Sample.love_text) Sample.love_scores); reflexivity.
Defined.

(** X18.  Whenever the VADER scorer raises on the analysed text,
    [perform_analysis] ends with AttributeError after one VADER call and no
    TextBlob call; [self.vader_scores] holds the failure pair, while the
    report, the label, the TextBlob pair and the chart of an earlier
    analysis are left as they were and can still be saved. *)
Theorem vader_failure_leaves_the_old_report
    (ext : Externals) (e : exn) (w : World) :
  Str.truthy (input_text w) = true ->
  polarity_scores ext (input_text w) = Raise e ->
  result (perform_analysis ext) w =
    Raise (Exn "AttributeError" "'tuple' object has no attribute 'get'") /\
  exec (perform_analysis ext) w =
    mkWorld (results w) (VError (exn_msg e)) (polarity w) (subjectivity w)
            (file_content w) (text_entry w) (result_label w) (chart w)
            (trace w ++ [VaderCall (input_text w)])%list.
Proof.
  intros Ht He. unfold result, exec.
  rewrite (perform_analysis_vader_raises ext e w Ht He).
  split; reflexivity.
Qed.

Lemma vader_failure_leaves_the_old_report_witness :
  result (perform_analysis Sample.vader_down)
    (set_results "old report" (Sample.typed "I love this!")) =
    Raise (Exn "AttributeError" "'tuple' object has no attribute 'get'") /\
  exec (perform_analysis Sample.vader_down)
    (set_results "old report" (Sample.typed "I love this!")) =
    mkWorld "old report"
            (VError (exn_msg (Exn "IndexError" "list index out of range")))
            PNone PNone "" "I love this!" "" []
            ([] ++ [VaderCall "I love this!"])%list.
Proof.
  apply (vader_failure_leaves_the_old_report Sample.vader_down
           (Exn "IndexError" "list index out of range")
           (set_results "old report" (Sample.typed "I love this!")));
    reflexivity.
Defined.

(** [vader_scores[k]] on a dict that holds the key. *)
Lemma vader_item_present (d : dict) (k : string) (v : Q) :
  dict_get d k = Some v -> vader_item (VScores d) k = Return (PFloat v).
Proof. intro H. unfold vader_item, dict_item. now rewrite H. Qed.

(** X19.  When both scorers succeed, the score dict holds pos, neu and neg,
    and the chart accepts the heights, [perform_analysis] returns normally:
    the same report is stored and shown, the scores and the TextBlob pair
    are stored, the chart holds the five bars Positive, Neutral, Negative,
    Polarity, Subjectivity with these values, and each scorer was called
    once, VADER first. *)
Theorem successful_analysis_stores_report_and_chart
    (ext : Externals) (w : World) (d : dict) (pos neu neg p s : Q) :
  Str.truthy (input_text w) = true ->
  polarity_scores ext (input_text w) = Return d ->
  blob_sentiment ext (input_text w) = Return (p, s) ->
  dict_get d "pos" = Some pos ->
  dict_get d "neu" = Some neu ->
  dict_get d "neg" = Some neg ->
  ax_bar ext [PFloat pos; PFloat neu; PFloat neg; PFloat p; PFloat s]
    = Return tt ->
  exists report,
    perform_analysis ext w =
      (Return tt,
       mkWorld report (VScores d) (PFloat p) (PFloat s) (file_content w)
               (text_entry w) report
               [("Positive", PFloat pos); ("Neutral", PFloat neu);
                ("Negative", PFloat neg); ("Polarity", PFloat p);
                ("Subjectivity", PFloat s)]
               (trace w ++ [VaderCall (input_text w);
                            TextBlobCall (input_text w)])%list) /\
    Str.truthy report = true.
Proof.
  intros Ht Hd Hb Hpos Hneu Hneg Hbar.
  destruct (vader_report_returns ext d) as (head & Hhead & Hne).
  destruct (textblob_report_returns ext (input_text w) head) as (tail & Htail).
  exists (head ++ tail). split; [|now apply append_truthy].
  rewrite perform_analysis_nonempty by exact Ht.
  rewrite run_analysis_run. unfold vader_value_of. rewrite Hd. cbv zeta.
  rewrite Hhead, Htail.
  unfold textblob_pair_of. rewrite Hb. cbn [fst snd].
  unfold plot, bind, lift, modify.
  rewrite (vader_item_present d "pos" pos Hpos),
          (vader_item_present d "neu" neu Hneu),
          (vader_item_present d "neg" neg Hneg), Hbar.
  world. rewrite <- app_assoc. reflexivity.
Qed.

Lemma successful_analysis_stores_report_and_chart_witness :
  exists report,
    perform_analysis Shelf.ext (Sample.typed "I love this!") =
      (Return tt,
       mkWorld report (VScores Sample.love_scores) (PFloat 0.625)
               (PFloat 0.6) "" "I love this!" report
               [("Positive", PFloat 0.818); ("Neutral", PFloat 0.182);
                ("Negative", PFloat 0.0); ("Polarity", PFloat 0.625);
                ("Subjectivity", PFloat 0.6)]
               ([] ++ [VaderCall "I love this!";
                       TextBlobCall "I love this!"])%list) /\
    Str.truthy report = true.
Proof.
  apply (successful_analysis_stores_report_and_chart Shelf.ext
           (Sample.typed "I love this!") Sample.love_scores
           0.818 0.182 0.0 0.625 0.6); reflexivity.
Defined.

(** ** The chart *)





(** ** Sessions *)

Lemma truthy_nonempty (s : string) : Str.truthy s = true -> s <> "".
Proof. destruct s; intro H; [discriminate H|discriminate]. Qed.

Lemma textblob_pair_shape (ext : Externals) (text : string) :
  pair_shape (fst (textblob_pair_of ext text))
             (snd (textblob_pair_of ext text)).
Proof.
  unfold textblob_pair_of, pair_shape.
  destruct (blob_sentiment ext text) as [[p s]|e]; cbn [fst snd].
  - right; left. now exists p, s.
  - right; right. now exists (exn_msg e).
Qed.

Lemma process_file_trace
    (ext : Externals) (path file_type : string) (w : World) :
  trace (exec (process_file ext path file_type) w) = trace w \/
  trace (exec (process_file ext path file_type) w) =
    (trace w ++ [FileRead path])%list.
Proof.
  run.
  destruct (file_type =? "txt").
  { destruct (open_read ext path); auto. }
  destruct (file_type =? "csv").
  { destruct (read_csv ext path) as [df|]; [|auto].
    destruct (to_string ext df); auto. }
  destruct (file_type =? "pdf"); [|auto].
  destruct (fitz_open ext path) as [doc|]; [|auto].
  destruct (pdf_pages ext doc _ _); auto.
Qed.

Lemma sound_snoc (e : event) (l : list event) :
  sound_event e -> Forall sound_event l -> Forall sound_event (l ++ [e])%list.
Proof.
  intros He Hl. apply Forall_app. split; [exact Hl|now constructor].
Qed.

Section Sessions.

Variable ext : Externals.

Lemma run_analysis_coherent (text : string) (w : World) :
  text <> "" -> coherent w -> coherent (exec (run_analysis ext text) w).
Proof.
  intros Hne (Hl & Hp & Ht). unfold exec. rewrite run_analysis_run. cbv zeta.
  assert (Hv : Forall sound_event (trace w ++ [VaderCall text])%list)
    by (apply sound_snoc; assumption).
  assert (Hb : Forall sound_event
                 ((trace w ++ [VaderCall text]) ++ [TextBlobCall text])%list)
    by (apply sound_snoc; assumption).
  destruct (vader_report ext (vader_value_of ext text)) as [head|e].
  2:{ cbn [snd]. split; [exact Hl|]. split; [exact Hp|exact Hv]. }
  destruct (textblob_report ext (fst (textblob_pair_of ext text))
              (snd (textblob_pair_of ext text)) head) as [r|e].
  2:{ cbn [snd]. split; [exact Hl|].
      split; [apply textblob_pair_shape|exact Hb]. }
  match goal with
  | |- context [plot ext ?v ?p ?s ?w0] =>
      destruct (plot_frame ext v p s w0) as (Hs & _ & Hl' & Ht')
  end.
  unfold exec, stored in Hs, Hl', Ht'.
  injection Hs as Hr _ Hpo Hsu _.
  unfold coherent. rewrite Hl', Ht', Hr, Hpo, Hsu.
  split; [reflexivity|]. split; [apply textblob_pair_shape|exact Hb].
Qed.

Lemma perform_analysis_coherent (w : World) :
  coherent w -> coherent (exec (perform_analysis ext) w).
Proof.
  intro H. unfold exec. destruct (Str.truthy (input_text w)) eqn:E.
  - rewrite perform_analysis_nonempty by exact E.
    apply run_analysis_coherent; [now apply truthy_nonempty|exact H].
  - rewrite perform_analysis_empty by exact E. cbn [snd].
    destruct H as (Hl & Hp & Ht).
    split; [exact Hl|]. split; [exact Hp|].
    apply (sound_snoc input_warning); [exact I|exact Ht].
Qed.

Lemma clear_text_coherent (w : World) :
  coherent w -> coherent (exec clear_text w).
Proof.
  intros (_ & _ & Ht). unfold exec, clear_text, bind, modify. cbn [fst snd].
  split; [reflexivity|]. split; [left; now split|exact Ht].
Qed.

Lemma upload_file_coherent (chosen : string) (w : World) :
  coherent w -> coherent (exec (upload_file ext chosen) w).
Proof.
  intros (Hl & Hp & Ht).
  assert (Ho : Forall sound_event (trace w ++ [OpenFileDialog])%list)
    by (apply sound_snoc; [exact I|exact Ht]).
  unfold exec, upload_file, bind, emit, modify, gets.
  fold (logged OpenFileDialog w).
  destruct (Str.truthy chosen).
  2:{ cbn [snd]. split; [exact Hl|]. split; [exact Hp|exact Ho]. }
  assert (Hframe : snapshot (exec (process_file ext chosen
                     (Str.extension chosen)) (logged OpenFileDialog w)) =
                   snapshot (logged OpenFileDialog w))
    by apply process_file_snapshot.
  assert (Hs : Forall sound_event
                 (trace (exec (process_file ext chosen (Str.extension chosen))
                           (logged OpenFileDialog w)))).
  { destruct (process_file_trace ext chosen (Str.extension chosen)
                (logged OpenFileDialog w)) as [Htr|Htr]; rewrite Htr.
    - exact Ho.
    - apply (sound_snoc (FileRead chosen)); [exact I|exact Ho]. }
  unfold exec, snapshot, stored in Hframe, Hs.
  destruct (process_file ext chosen (Str.extension chosen)
              (logged OpenFileDialog w)) as [[c|e] w'];
    cbn [fst snd] in *;
    injection Hframe as Hr _ Hpo Hsu _ _ Hrl _;
    unfold coherent;
    cbn [results polarity subjectivity result_label trace
         set_text_entry set_file_content file_content];
    rewrite Hr, Hpo, Hsu, Hrl;
    (split; [exact Hl|]; split; [exact Hp|exact Hs]).
Qed.

Lemma save_results_coherent (chosen : string) (w : World) :
  coherent w -> coherent (exec (save_results ext chosen) w).
Proof.
  intros (Hl & Hp & Ht). run.
  destruct (Str.truthy (results w)) eqn:Er; cbn [negb snd].
  2:{ split; [exact Hl|]. split; [exact Hp|].
      apply sound_snoc; [exact I|exact Ht]. }
  assert (Hd : Forall sound_event (trace w ++ [SaveFileDialog])%list)
    by (apply sound_snoc; [exact I|exact Ht]).
  destruct (Str.truthy chosen) eqn:Ec.
  2:{ split; [exact Hl|]. split; [exact Hp|exact Hd]. }
  unfold modify. cbn [results set_trace].
  destruct (open_write ext chosen (results w)).
  2:{ split; [exact Hl|]. split; [exact Hp|exact Hd]. }
  split; [exact Hl|]. split; [exact Hp|].
  cbn [snd trace set_trace].
  apply sound_snoc; [exact I|].
  apply sound_snoc; [|exact Hd].
  split; now apply truthy_nonempty.
Qed.

Lemma handle_coherent (a : action) (w : World) :
  coherent w -> coherent (exec (handle ext a) w).
Proof.
  destruct a as [text| | |chosen|chosen]; cbn [handle].
  - intros (Hl & Hp & Ht). split; [exact Hl|]. split; [exact Hp|exact Ht].
  - apply perform_analysis_coherent.
  - apply clear_text_coherent.
  - apply upload_file_coherent.
  - apply save_results_coherent.
Qed.

Lemma session_coherent (actions : list action) :
  coherent (session ext actions).
Proof.
  unfold session.
  assert (H0 : coherent init).
  { split; [reflexivity|]. split; [left; now split|constructor]. }
  revert H0. generalize init.
  induction actions as [|a actions IH]; intros w Hw; cbn [fold_left].
  - exact Hw.
  - apply IH. now apply handle_coherent.
Qed.

End Sessions.

(** X22.  Whatever the user does, in whatever order and whatever the
    collaborators answer, the result label shows exactly the stored report:
    after every action [result_label.text()] equals [self.results]. *)
Theorem session_label_shows_the_stored_report
    (ext : Externals) (actions : list action) :
  result_label (session ext actions) = results (session ext actions).
Proof. apply session_coherent. Qed.

(** X23.  After every action [self.polarity] and [self.subjectivity] are
    both [None], or both floats, or [None] and the text of an exception;
    the polarity is never a string and never a float beside a subjectivity
    that is not one. *)
Theorem session_textblob_pair_has_a_shape
    (ext : Externals) (actions : list action) :
  pair_shape (polarity (session ext actions))
             (subjectivity (session ext actions)).
Proof. apply session_coherent. Qed.

(** X24.  In no session is a file written with an empty path or an empty
    content, and in no session is a scorer called on the empty text. *)
Theorem session_events_are_sound
    (ext : Externals) (actions : list action) :
  Forall sound_event (trace (session ext actions)).
Proof. apply session_coherent. Qed.
